(** * Server tracing middleware of ghttp (net/ghttp/ghttp_middleware_tracing.go)

    A shallow embedding of [internalMiddlewareServerTracing] and
    [getSpanContext].  The middleware talks to many collaborators (the
    OpenTelemetry tracer and propagator, the request object, helpers of the
    framework); their calls are threaded through a small state-and-panic
    monad over a [World] that holds the request, the ordered log of the
    collaborator calls made so far, and the state of the identifier
    generators. *)

From Stdlib Require Import ZArith Strings.String Strings.Ascii Strings.Byte.
From stdpp Require Import base option list strings gmap.

Local Open Scope string_scope.
Local Open Scope list_scope.
Local Open Scope Z_scope.

(** ** Data model *)

(** A Go [http.Header]: [map[string][]string]. *)
Abbreviation Header := (gmap string (list string)).

(** [trace.TraceID] is a [[16]byte] and [trace.SpanID] a [[8]byte]; both are
    held as the unsigned integer their bytes spell, so the all-zero (invalid)
    identifier is [0]. *)
Abbreviation TraceID := Z (only parsing).
Abbreviation SpanID := Z (only parsing).

(** [trace.SpanContextConfig]; a field left out of a Go composite literal
    takes its zero value. *)
Record SpanContextConfig := {
  TraceID_ : TraceID;
  SpanID_ : SpanID;
  TraceFlags_ : Z;
  TraceState_ : list (string * string);
  Remote_ : bool
}.

(** [trace.SpanContext]. *)
Record SpanContext := mkSpanContext {
  sc_TraceID : TraceID;
  sc_SpanID : SpanID;
  sc_TraceFlags : Z;
  sc_TraceState : list (string * string);
  sc_Remote : bool
}.

Definition NewSpanContext (config : SpanContextConfig) : SpanContext :=
  {| sc_TraceID := TraceID_ config;
     sc_SpanID := SpanID_ config;
     sc_TraceFlags := TraceFlags_ config;
     sc_TraceState := TraceState_ config;
     sc_Remote := Remote_ config |}.

Definition emptySpanContext : SpanContext := mkSpanContext 0 0 0 [] false.

Definition WithRemote (sc : SpanContext) (remote : bool) : SpanContext :=
  {| sc_TraceID := sc_TraceID sc;
     sc_SpanID := sc_SpanID sc;
     sc_TraceFlags := sc_TraceFlags sc;
     sc_TraceState := sc_TraceState sc;
     sc_Remote := remote |}.

(** [SpanContext.IsValid]: a non-zero trace ID and a non-zero span ID. *)
Definition IsValid (sc : SpanContext) : bool :=
  negb (sc_TraceID sc =? 0) && negb (sc_SpanID sc =? 0).

(** [SpanContext.IsSampled]: bit 0 of the trace flags. *)
Definition IsSampled (sc : SpanContext) : bool := Z.testbit (sc_TraceFlags sc) 0.

Inductive SpanKind :=
| SpanKindUnspecified | SpanKindInternal | SpanKindServer
| SpanKindClient | SpanKindProducer | SpanKindConsumer.

(** [attribute.KeyValue], as built by [attribute.String]. *)
Abbreviation KeyValue := (string * string)%type (only parsing).

(** A span handed out by [Tracer.Start]: what it was started with. *)
Record Span := mkSpan {
  span_SpanContext : SpanContext;
  span_parent : SpanContext;
  span_name : string;
  span_kind : SpanKind;
  span_instrumentation : string * string
}.

(** The value [trace.ContextWithSpan] stores: a span started by a tracer, or
    the non-recording wrapper of a bare span context. *)
Inductive ContextSpan :=
| nonRecordingSpan (sc : SpanContext)
| startedSpan (s : Span).

Definition SpanContext_of (s : ContextSpan) : SpanContext :=
  match s with
  | nonRecordingSpan sc => sc
  | startedSpan s => span_SpanContext s
  end.

(** [codes.Code]. *)
Inductive Code := Unset | Error | Ok.

(** *** context.Context

    A chain of key/value pairs, the innermost first. *)
Inductive CtxKey :=
| StrKey (s : string)        (* gctx.StrKey *)
| currentSpanKey             (* the key of package trace *)
| otherKey (n : nat).

Inductive CtxVal :=
| VInt (z : Z)
| VSpan (s : ContextSpan)
| VString (s : string).

Abbreviation Context := (list (CtxKey * CtxVal)) (only parsing).

#[global] Instance SpanKind_eq_dec : EqDecision SpanKind.
Proof. solve_decision. Defined.
#[global] Instance SpanContext_eq_dec : EqDecision SpanContext.
Proof. solve_decision. Defined.
#[global] Instance Span_eq_dec : EqDecision Span.
Proof. solve_decision. Defined.
#[global] Instance ContextSpan_eq_dec : EqDecision ContextSpan.
Proof. solve_decision. Defined.
#[global] Instance Code_eq_dec : EqDecision Code.
Proof. solve_decision. Defined.
#[global] Instance CtxKey_eq_dec : EqDecision CtxKey.
Proof. solve_decision. Defined.

(** [context.WithValue] and [ctx.Value]; [None] is Go's [nil]. *)
Definition WithValue (ctx : Context) (k : CtxKey) (v : CtxVal) : Context :=
  (k, v) :: ctx.

Fixpoint Value (ctx : Context) (k : CtxKey) : option CtxVal :=
  match ctx with
  | [] => None
  | (k', v) :: parent => if decide (k' = k) then Some v else Value parent k
  end.

(** Package trace: the current span of a context. *)
Definition ContextWithSpan (parent : Context) (s : ContextSpan) : Context :=
  WithValue parent currentSpanKey (VSpan s).

Definition ContextWithSpanContext (parent : Context) (sc : SpanContext) : Context :=
  ContextWithSpan parent (nonRecordingSpan sc).

Definition ContextWithRemoteSpanContext (parent : Context) (rsc : SpanContext) : Context :=
  ContextWithSpanContext parent (WithRemote rsc true).

Definition SpanContextFromContext (ctx : Context) : SpanContext :=
  match Value ctx currentSpanKey with
  | Some (VSpan s) => SpanContext_of s
  | _ => emptySpanContext
  end.

(** *** Body streams

    An [io.ReadCloser] is described by what reading it to the end delivers:
    the bytes still to come, and how the stream finishes ([None] is [io.EOF],
    [Some e] a read error met after those bytes). *)
Record ReadCloser := mkReadCloser {
  rc_data : list byte;
  rc_fail : option string
}.

(** [ioutil.ReadAll]: "reads from r until an error or EOF and returns the data
    it read"; EOF is not reported as an error.  The third component is the
    drained reader. *)
Definition ioutil_ReadAll (r : ReadCloser) : list byte * option string * ReadCloser :=
  (rc_data r, rc_fail r, {| rc_data := []; rc_fail := rc_fail r |}).

(** Modelled from the spec: utils.NewReadCloser (internal/utils) is outside the
    translated sources.  Section 4.1 step 7 has the body "restore[d] as a
    fresh readable stream on the request object": a stream over [content]
    that ends in EOF.  The flag [repeatable] (re-reading after exhaustion) is
    [false] at its only call and has no effect on a first read. *)
Definition NewReadCloser (content : list byte) (repeatable : bool) : ReadCloser :=
  {| rc_data := content; rc_fail := None |}.

(** Go's conversion [string(b)] of a byte slice. *)
Definition string_of_bytes (b : list byte) : string := string_of_list_byte b.

(** Modelled from the spec: gstr.StrLimit (text/gstr) is outside the
    translated sources.  Section 8 item 5: "a body exceeding the configured
    maximum length is captured as the first N bytes followed by a truncation
    marker; a body at or under the limit is captured verbatim". *)
Definition StrLimit (str : string) (length : Z) (suffix : string) : string :=
  if length <? Z.of_nat (String.length str)
  then String.substring 0 (Z.to_nat length) str +:+ suffix
  else str.

(** *** The request *)

Record Response := mkResponse {
  resp_Header : option Header;   (* [r.Response.Header()], possibly a nil map *)
  resp_buffer : list byte        (* what [r.Response.BufferString()] renders *)
}.

Record Request := mkRequest {
  r_context : Context;
  r_Header : Header;
  r_URL : string;                (* [r.URL.String()] *)
  r_Body : ReadCloser;
  r_error : option string;       (* the error slot read by [r.GetError()] *)
  r_Response : Response
}.

(** *** The world

    Every call the middleware makes to the tracer or to a helper whose work
    the fast path is meant to save is appended to [w_calls]. *)
Inductive Call :=
| CallStart (sp : Span)
| CallSetAttributes (sp : Span) (kv : list KeyValue)
| CallAddEvent (sp : Span) (name : string) (kv : list KeyValue)
| CallSetStatus (sp : Span) (code : Code) (description : string)
| CallEnd (sp : Span)
| CallHeaderToMap (h : Header)
| CallGetBaggageMap
| CallReadAll.

Record World := mkWorld {
  w_req : Request;
  w_calls : list Call;
  w_entropy : nat                (* state of the identifier generators *)
}.

(** ** Collaborators

    What the middleware is handed from outside this file: packages of the
    framework, the Go library and OpenTelemetry.  The theorems hold for every
    choice of them. *)
Class Collaborators := {
  (** net/textproto, used by [http.Header.Get] *)
  CanonicalMIMEHeaderKey : string → string;
  (** [trace.TraceIDFromHex]; [None] stands for a non-nil error *)
  TraceIDFromHex : string → option TraceID;
  (** [otel.GetTextMapPropagator()]: its [Extract] on a [HeaderCarrier], and
      the header names it declares in [Fields()] *)
  Propagator_Extract : Context → Header → Context;
  Propagator_Fields : list string;
  (** [tracing.NewSpanID] (internal/tracing), drawn from the generator state *)
  NewSpanID_at : nat → SpanID;
  (** the tracer provider's ID generator and sampler *)
  IDGenerator_NewIDs : nat → TraceID * SpanID;
  Sampler_ShouldSample : SpanContext → TraceID → string → SpanKind → bool;
  (** package gtrace *)
  IsUsingDefaultProvider : bool;
  CommonLabels : list KeyValue;
  MaxContentLogSize : Z;
  (** [gf.VERSION] *)
  VERSION : string;
  (** [gconv.String(httputil.HeaderToMap(h))] *)
  HeaderToMap_String : Header → string;
  (** [gtrace.GetBaggageMap(ctx).String()] *)
  GetBaggageMap_String : Context → string;
  (** [fmt.Sprintf(`%+v`, err)] *)
  Sprintf_plus_v : string → string
}.

(** [http.Header.Get]: the first value under the canonical form of [key], the
    empty string when there is none. *)
Definition Header_Get `{Collaborators} (h : Header) (key : string) : string :=
  match h !! CanonicalMIMEHeaderKey key with
  | Some (v :: _) => v
  | _ => ""
  end.

(** [http.Header.Del]. *)
Definition Header_Del `{Collaborators} (h : Header) (key : string) : Header :=
  delete (CanonicalMIMEHeaderKey key) h.

(** ** The monad: state of the world, and panics *)

Inductive Outcome (A : Type) :=
| Normal (a : A)
| Panic (v : string).
Arguments Normal {A} a.
Arguments Panic {A} v.

Definition M (A : Type) : Type := World → Outcome A * World.

Definition ret {A} (a : A) : M A := λ w, (Normal a, w).

(** Sequencing: a panic of the first computation skips the second. *)
Definition bind {A B} (m : M A) (f : A → M B) : M B := λ w,
  match m w with
  | (Normal a, w') => f a w'
  | (Panic v, w') => (Panic v, w')
  end.

Notation "'let*' x ':=' c 'in' k" := (bind c (λ x, k))
  (at level 10, x pattern, c at level 100, k at level 200, only parsing).
Notation "'run' c 'then' k" := (bind c (λ _, k))
  (at level 10, c at level 100, k at level 200, only parsing).

(** Go's [defer]: [deferred] runs when [body] is left, by a return or by a
    panic alike, and the outcome of [body] stands. *)
Definition defer {A} (deferred : M unit) (body : M A) : M A := λ w,
  let '(r, w1) := body w in
  (r, (deferred w1).2).

Definition add_calls (w : World) (cs : list Call) : World :=
  {| w_req := w_req w; w_calls := w_calls w ++ cs; w_entropy := w_entropy w |}.

Definition call (c : Call) : M unit := λ w, (Normal tt, add_calls w [c]).

Definition set_context (r : Request) (ctx : Context) : Request :=
  {| r_context := ctx; r_Header := r_Header r; r_URL := r_URL r;
     r_Body := r_Body r; r_error := r_error r; r_Response := r_Response r |}.

Definition set_Body (r : Request) (b : ReadCloser) : Request :=
  {| r_context := r_context r; r_Header := r_Header r; r_URL := r_URL r;
     r_Body := b; r_error := r_error r; r_Response := r_Response r |}.

Definition with_req (w : World) (r : Request) : World :=
  {| w_req := r; w_calls := w_calls w; w_entropy := w_entropy w |}.

(** *** The request object ([*ghttp.Request])

    Modelled from the spec: the methods of [Request] (ghttp_request.go) are
    outside the translated sources.  Section 6 gives the request a context,
    a header mapping, a URL, "a readable+replaceable body stream, and an
    associated error slot set by downstream handlers"; the accessors below
    read and write those slots. *)
Definition r_Context : M Context := λ w, (Normal (r_context (w_req w)), w).

Definition r_SetCtx (ctx : Context) : M unit := λ w,
  (Normal tt, with_req w (set_context (w_req w) ctx)).

Definition r_Header_ : M Header := λ w, (Normal (r_Header (w_req w)), w).

Definition r_URL_String : M string := λ w, (Normal (r_URL (w_req w)), w).

Definition r_GetHeader `{Collaborators} (key : string) : M string := λ w,
  (Normal (Header_Get (r_Header (w_req w)) key), w).

Definition r_GetError : M (option string) := λ w, (Normal (r_error (w_req w)), w).

Definition r_Response_Header : M (option Header) := λ w,
  (Normal (resp_Header (r_Response (w_req w))), w).

Definition r_Response_BufferString : M string := λ w,
  (Normal (string_of_bytes (resp_buffer (r_Response (w_req w)))), w).

(** [ioutil.ReadAll(r.Body)]: drains the body stream of the request. *)
Definition ReadAll_r_Body : M (list byte * option string) := λ w,
  let '(b, err, drained) := ioutil_ReadAll (r_Body (w_req w)) in
  (Normal (b, err), add_calls (with_req w (set_Body (w_req w) drained)) [CallReadAll]).

(** [r.Body = b]. *)
Definition r_Body_assign (b : ReadCloser) : M unit := λ w,
  (Normal tt, with_req w (set_Body (w_req w) b)).

(** *** Helpers whose work is logged *)

Definition HeaderToMap `{Collaborators} (h : Header) : M string := λ w,
  (Normal (HeaderToMap_String h), add_calls w [CallHeaderToMap h]).

Definition GetBaggageMap `{Collaborators} (ctx : Context) : M string := λ w,
  (Normal (GetBaggageMap_String ctx), add_calls w [CallGetBaggageMap]).

(** [tracing.NewSpanID()]: one draw from the generator. *)
Definition NewSpanID `{Collaborators} : M SpanID := λ w,
  (Normal (NewSpanID_at (w_entropy w)),
   {| w_req := w_req w; w_calls := w_calls w; w_entropy := S (w_entropy w) |}).

(** *** The tracer

    [otel.GetTracerProvider().Tracer(name, version).Start(ctx, spanName,
    WithSpanKind(kind))], after the OpenTelemetry API: the new span is a child
    of the span context carried by [ctx] when that one is valid (it keeps its
    trace ID and trace state) and the root of a new trace otherwise; the
    returned context is [ctx] with the new span as its current span. *)
Definition tr_Start `{Collaborators} (instrumentation : string * string)
    (ctx : Context) (spanName : string) (kind : SpanKind) : M (Context * Span) := λ w,
  let parent := SpanContextFromContext ctx in
  let '(tid, sid) := IDGenerator_NewIDs (w_entropy w) in
  let traceID := if IsValid parent then sc_TraceID parent else tid in
  let sc :=
    {| sc_TraceID := traceID;
       sc_SpanID := sid;
       sc_TraceFlags := if Sampler_ShouldSample parent traceID spanName kind then 1 else 0;
       sc_TraceState := sc_TraceState parent;
       sc_Remote := false |} in
  let span := mkSpan sc parent spanName kind instrumentation in
  (Normal (ContextWithSpan ctx (startedSpan span), span),
   {| w_req := w_req w; w_calls := w_calls w ++ [CallStart span];
      w_entropy := S (w_entropy w) |}).

Definition span_SetAttributes (span : Span) (kv : list KeyValue) : M unit :=
  call (CallSetAttributes span kv).
Definition span_AddEvent (span : Span) (name : string) (kv : list KeyValue) : M unit :=
  call (CallAddEvent span name kv).
Definition span_SetStatus (span : Span) (code : Code) (description : string) : M unit :=
  call (CallSetStatus span code description).
Definition span_End (span : Span) : M unit :=
  call (CallEnd span).

(** ** The source file *)

Definition tracingInstrumentName := "github.com/gogf/gf/v2/net/ghttp.Server".
Definition tracingEventHttpRequest := "http.request".
Definition tracingEventHttpRequestHeaders := "http.request.headers".
Definition tracingEventHttpRequestBaggage := "http.request.baggage".
Definition tracingEventHttpRequestBody := "http.request.body".
Definition tracingEventHttpResponse := "http.response".
Definition tracingEventHttpResponseHeaders := "http.response.headers".
Definition tracingEventHttpResponseBody := "http.response.body".
Definition tracingMiddlewareHandled : CtxKey := StrKey "MiddlewareServerTracingHandled".

Definition getSpanContext `{Collaborators} (ctx : Context) (header : Header) : M Context :=
  let traceID := Header_Get header "MF-X-TRACE-ID" in
  if decide (traceID = "") then
    ret (Propagator_Extract ctx header)
  else
    match TraceIDFromHex traceID with
    | None => ret (Propagator_Extract ctx header)
    | Some generatedTraceID =>
        let* spanID := NewSpanID in
        ret (ContextWithRemoteSpanContext ctx (NewSpanContext
          {| TraceID_ := generatedTraceID;
             SpanID_ := spanID;
             TraceFlags_ := 0; TraceState_ := []; Remote_ := false |}))
    end.

(** [next] is [r.Middleware.Next()], the rest of the handler chain. *)
Definition internalMiddlewareServerTracing `{Collaborators} (next : M unit) : M unit :=
  let* ctx := r_Context in
  match Value ctx tracingMiddlewareHandled with
  | Some _ => next
  | None =>
    let ctx := WithValue ctx tracingMiddlewareHandled (VInt 1) in
    let tr := tr_Start (tracingInstrumentName, VERSION) in
    let* header := r_Header_ in
    let* parent := getSpanContext ctx header in
    let* url := r_URL_String in
    let* (ctx, span) := tr parent url SpanKindServer in
    defer (span_End span) (
      run span_SetAttributes span CommonLabels then
      run r_SetCtx ctx then
      if IsUsingDefaultProvider then next
      else
        let* header := r_Header_ in
        let* headers := HeaderToMap header in
        let* baggage := GetBaggageMap ctx in
        let reqAttrs := [(tracingEventHttpRequestHeaders, headers);
                         (tracingEventHttpRequestBaggage, baggage)] in
        let* reqEncoding := r_GetHeader "Content-Encoding" in
        let* reqAttrs :=
          (if decide (reqEncoding = "") then
             let* (reqBodyContentBytes, _) := ReadAll_r_Body in
             run r_Body_assign (NewReadCloser reqBodyContentBytes false) then
             ret (reqAttrs ++ [(tracingEventHttpRequestBody,
                    StrLimit (string_of_bytes reqBodyContentBytes) MaxContentLogSize "...")])
           else ret reqAttrs) in
        run span_AddEvent span tracingEventHttpRequest reqAttrs then
        run next then
        let* err := r_GetError in
        run (match err with
             | Some err => span_SetStatus span Error (Sprintf_plus_v err)
             | None => ret tt
             end) then
        let* respHeader := r_Response_Header in
        let* headers := HeaderToMap (default ∅ respHeader) in
        let respAttrs := [(tracingEventHttpResponseHeaders, headers)] in
        let respEncoding :=
          match respHeader with
          | Some h => Header_Get h "Content-Encoding"
          | None => ""
          end in
        let* respAttrs :=
          (if decide (respEncoding = "") then
             let* buffer := r_Response_BufferString in
             let resBodyContent := StrLimit buffer MaxContentLogSize "..." in
             ret (respAttrs ++ [(tracingEventHttpResponseBody, resBodyContent)])
           else ret respAttrs) in
        span_AddEvent span tracingEventHttpResponse respAttrs)
  end.

(** ** Observations on the call log *)

(** Number of spans started. *)
Fixpoint count_starts (cs : list Call) : nat :=
  match cs with
  | [] => O
  | CallStart _ :: cs => S (count_starts cs)
  | _ :: cs => count_starts cs
  end.

(** Number of spans ended. *)
Fixpoint count_ends (cs : list Call) : nat :=
  match cs with
  | [] => O
  | CallEnd _ :: cs => S (count_ends cs)
  | _ :: cs => count_ends cs
  end.



(** The value of attribute [key] in [kv]. *)
Fixpoint attribute (key : string) (kv : list KeyValue) : option string :=
  match kv with
  | [] => None
  | (k, v) :: kv => if decide (k = key) then Some v else attribute key kv
  end.

(** Calls that capture content: serialising headers or baggage, reading the
    body, recording an event. *)
Definition is_capture (c : Call) : bool :=
  match c with
  | CallHeaderToMap _ | CallGetBaggageMap | CallReadAll | CallAddEvent _ _ _ => true
  | _ => false
  end.

(** The attribute sets of the events called [name] that were added to [span]. *)
Fixpoint events_named (span : Span) (name : string) (cs : list Call) : list (list KeyValue) :=
  match cs with
  | [] => []
  | CallAddEvent sp n kv :: cs =>
      if decide (sp = span ∧ n = name)
      then kv :: events_named span name cs
      else events_named span name cs
  | _ :: cs => events_named span name cs
  end.

(** [hands_over mw w w1]: started in [w], the middleware [mw] runs the rest of
    the chain in the world [w1]; its outcome and the request it leaves are
    those of the chain, and the log it leaves is the chain's log followed by
    calls of its own. *)
Definition hands_over (mw : M unit → M unit) (w w1 : World) : Prop :=
  ∀ next : M unit,
    (mw next w).1 = (next w1).1 ∧
    w_req (mw next w).2 = w_req (next w1).2 ∧
    ∃ cs, w_calls (mw next w).2 = w_calls (next w1).2 ++ cs.

(** The value of the [Content-Encoding] header of the response, as the
    middleware reads it: empty for a nil header map. *)
Definition response_encoding `{Collaborators} (r : Request) : string :=
  match resp_Header (r_Response r) with
  | Some h => Header_Get h "Content-Encoding"
  | None => ""
  end.

(** The words of the specification on truncation: [value] is the body cut to
    its first [limit] bytes and followed by the marker when the body is longer
    than [limit], and the body itself otherwise. *)
Definition truncated_to (limit : Z) (body : list byte) (value : string) : Prop :=
  (limit < Z.of_nat (length body) →
   value = string_of_bytes (take (Z.to_nat limit) body) +:+ "...")
  ∧ (Z.of_nat (length body) ≤ limit → value = string_of_bytes body).

(** The propagator consults the carrier only under the names it declares. *)
Definition reads_only_fields `{Collaborators} : Prop :=
  ∀ ctx (h h' : Header),
    (∀ k, k ∈ Propagator_Fields → Header_Get h k = Header_Get h' k) →
    Propagator_Extract ctx h = Propagator_Extract ctx h'.

(** The propagator returns a context derived from the one it is given, as far
    as the marker of this middleware goes. *)
Definition keeps_marker `{Collaborators} : Prop :=
  ∀ ctx (h : Header),
    Value ctx tracingMiddlewareHandled ≠ None →
    Value (Propagator_Extract ctx h) tracingMiddlewareHandled ≠ None.

(** ** A concrete set of collaborators

    Used to run the middleware on sample requests. *)
Module Sample.

Definition hex_digit (c : ascii) : option Z :=
  let n := Z.of_N (N_of_ascii c) in
  if (48 <=? n) && (n <=? 57) then Some (n - 48)
  else if (97 <=? n) && (n <=? 102) then Some (n - 87)
  else None.

Fixpoint hex_value (acc : Z) (s : string) : option Z :=
  match s with
  | EmptyString => Some acc
  | String c s =>
      match hex_digit c with
      | Some d => hex_value (16 * acc + d) s
      | None => None
      end
  end.

(** Lower-case hexadecimal of exactly [n] digits, not all zero. *)
Definition id_from_hex (n : nat) (h : string) : option Z :=
  if decide (String.length h = n) then
    match hex_value 0 h with
    | Some v => if v =? 0 then None else Some v
    | None => None
    end
  else None.

Definition upper (c : ascii) : ascii :=
  let n := N_of_ascii c in
  if (97 <=? n)%N && (n <=? 122)%N then ascii_of_N (n - 32) else c.
Definition lower (c : ascii) : ascii :=
  let n := N_of_ascii c in
  if (65 <=? n)%N && (n <=? 90)%N then ascii_of_N (n + 32) else c.

(** The canonical form of a header name made of letters, digits and
    hyphens: an upper-case letter first and after each hyphen. *)
Fixpoint canonical (up : bool) (s : string) : string :=
  match s with
  | EmptyString => EmptyString
  | String c s =>
      String (if up then upper c else lower c)
             (canonical (Ascii.eqb c "-"%char) s)
  end.

Definition get (h : Header) (key : string) : string :=
  match h !! canonical true key with
  | Some (v :: _) => v
  | _ => ""
  end.

(** A propagator for the [traceparent] header,
    [00-<32 hex>-<16 hex>-<2 hex>]; the trace state is left out. *)
Definition traceparent (v : string) : option SpanContext :=
  if decide (String.length v = 55%nat) then
    match id_from_hex 32 (String.substring 3 32 v),
          id_from_hex 16 (String.substring 36 16 v),
          hex_value 0 (String.substring 53 2 v) with
    | Some tid, Some sid, Some flags => Some (mkSpanContext tid sid flags [] true)
    | _, _, _ => None
    end
  else None.

Definition extract (ctx : Context) (h : Header) : Context :=
  match traceparent (get h "traceparent") with
  | Some sc => ContextWithRemoteSpanContext ctx sc
  | None => ctx
  end.

Definition collaborators (defaultProvider : bool) (maxContent : Z) : Collaborators :=
  {| CanonicalMIMEHeaderKey := canonical true;
     TraceIDFromHex := id_from_hex 32;
     Propagator_Extract := extract;
     Propagator_Fields := ["traceparent"; "tracestate"];
     NewSpanID_at := λ n, Z.of_nat n + 1;
     IDGenerator_NewIDs := λ n, (Z.of_nat n + 4096, Z.of_nat n + 1);
     Sampler_ShouldSample := λ parent _ _ _, IsSampled parent;
     IsUsingDefaultProvider := defaultProvider;
     CommonLabels := [("host.name", "localhost")];
     MaxContentLogSize := maxContent;
     VERSION := "v2";
     HeaderToMap_String := λ h, "map";
     GetBaggageMap_String := λ _, "{}";
     Sprintf_plus_v := λ e, e |}.

Definition body : list byte := [x68; x65; x6c; x6c; x6f]%byte.   (* hello *)

Definition request (h : Header) (b : ReadCloser) : Request :=
  {| r_context := [];
     r_Header := h;
     r_URL := "http://localhost/hello";
     r_Body := b;
     r_error := None;
     r_Response := mkResponse (Some ∅) [] |}.

Definition world (h : Header) (b : ReadCloser) : World :=
  {| w_req := request h b; w_calls := []; w_entropy := 0 |}.

Definition plain : Header := {[ "Content-Type" := ["text/plain"] ]}.
Definition encoded : Header := {[ "Content-Encoding" := ["gzip"] ]}.
Definition traced : Header :=
  {[ "Mf-X-Trace-Id" := ["0af7651916cd43dd8448eb211c80319c"] ]}.
Definition mistraced : Header :=
  {[ "Mf-X-Trace-Id" := ["not-a-trace-id"];
     "Traceparent" := ["00-0af7651916cd43dd8448eb211c80319c-b7ad6b7169203331-01"] ]}.

(** A handler that reads the request body and answers with it. *)
Definition echo : M unit := λ w,
  let r := w_req w in
  let '(b, _, drained) := ioutil_ReadAll (r_Body r) in
  (Normal tt,
   with_req w {| r_context := r_context r; r_Header := r_Header r; r_URL := r_URL r;
                 r_Body := drained; r_error := r_error r;
                 r_Response := mkResponse (resp_Header (r_Response r)) b |}).

(** A handler that records an error on the request. *)
Definition failing : M unit := λ w,
  let r := w_req w in
  (Normal tt,
   with_req w {| r_context := r_context r; r_Header := r_Header r; r_URL := r_URL r;
                 r_Body := r_Body r; r_error := Some "boom";
                 r_Response := r_Response r |}).

(** A handler whose answer is compressed. *)
Definition compressing : M unit := λ w,
  let r := w_req w in
  (Normal tt,
   with_req w {| r_context := r_context r; r_Header := r_Header r; r_URL := r_URL r;
                 r_Body := r_Body r; r_error := r_error r;
                 r_Response := mkResponse (Some encoded) body |}).

End Sample.

(** ** Running the collaborators *)

Section Run.
Context `{Collaborators}.

Lemma getSpanContext_run ctx (header : Header) w :
  ∃ parent e,
    getSpanContext ctx header w = (Normal parent, mkWorld (w_req w) (w_calls w) e).
Proof.
  destruct w as [r cs e]. unfold getSpanContext.
  destruct (decide _); [by eexists _, _|].
  destruct (TraceIDFromHex _); by eexists _, _.
Qed.

Lemma getSpanContext_marker ctx (header : Header) w parent w' :
  keeps_marker →
  Value ctx tracingMiddlewareHandled ≠ None →
  getSpanContext ctx header w = (Normal parent, w') →
  Value parent tracingMiddlewareHandled ≠ None.
Proof.
  intros Hkeep Hm. unfold getSpanContext.
  destruct (decide _).
  - intros [= <- _]. by apply Hkeep.
  - destruct (TraceIDFromHex _).
    + intros [= <- _]. exact Hm.
    + intros [= <- _]. by apply Hkeep.
Qed.

Lemma tr_Start_run instr ctx name kind w :
  ∃ span,
    tr_Start instr ctx name kind w =
      (Normal (ContextWithSpan ctx (startedSpan span), span),
       mkWorld (w_req w) (w_calls w ++ [CallStart span]) (S (w_entropy w)))
    ∧ span_parent span = SpanContextFromContext ctx
    ∧ (IsValid (SpanContextFromContext ctx) = true →
       sc_TraceID (span_SpanContext span) = sc_TraceID (SpanContextFromContext ctx)).
Proof.
  unfold tr_Start. destruct (IDGenerator_NewIDs _) as [tid sid].
  eexists. split; [reflexivity|]. simpl. split; [done|]. by intros ->.
Qed.

(** The opening of the middleware on a request it has not handled yet. *)
Lemma opening w :
  ∃ parent e span,
    getSpanContext (WithValue (r_context (w_req w)) tracingMiddlewareHandled (VInt 1))
      (r_Header (w_req w)) w = (Normal parent, mkWorld (w_req w) (w_calls w) e)
    ∧ tr_Start (tracingInstrumentName, VERSION) parent (r_URL (w_req w)) SpanKindServer
        (mkWorld (w_req w) (w_calls w) e)
      = (Normal (ContextWithSpan parent (startedSpan span), span),
         mkWorld (w_req w) (w_calls w ++ [CallStart span]) (S e)).
Proof.
  destruct (getSpanContext_run
    (WithValue (r_context (w_req w)) tracingMiddlewareHandled (VInt 1))
    (r_Header (w_req w)) w) as (parent & e & Hg).
  destruct (tr_Start_run (tracingInstrumentName, VERSION) parent (r_URL (w_req w))
    SpanKindServer (mkWorld (w_req w) (w_calls w) e)) as (span & Hs & _).
  by exists parent, e, span.
Qed.

Lemma mw_handled next w :
  Value (r_context (w_req w)) tracingMiddlewareHandled ≠ None →
  internalMiddlewareServerTracing next w = next w.
Proof.
  intros Hm. unfold internalMiddlewareServerTracing, bind, r_Context.
  by destruct (Value _ _).
Qed.
Lemma mw_fast next w parent w0 ctx1 span w1 :
  Value (r_context (w_req w)) tracingMiddlewareHandled = None →
  getSpanContext (WithValue (r_context (w_req w)) tracingMiddlewareHandled (VInt 1))
    (r_Header (w_req w)) w = (Normal parent, w0) →
  tr_Start (tracingInstrumentName, VERSION) parent (r_URL (w_req w0)) SpanKindServer w0
    = (Normal (ctx1, span), w1) →
  IsUsingDefaultProvider = true →
  internalMiddlewareServerTracing next w =
    let r := next (with_req (add_calls w1 [CallSetAttributes span CommonLabels])
                     (set_context (w_req w1) ctx1)) in
    (r.1, add_calls r.2 [CallEnd span]).
Proof.
  intros Hm Hg Hs Hd.
  unfold internalMiddlewareServerTracing, bind at 1. unfold r_Context at 1. rewrite Hm.
  unfold bind at 1. unfold r_Header_ at 1. unfold bind at 1. rewrite Hg.
  unfold bind at 1. unfold r_URL_String at 1. unfold bind at 1. rewrite Hs.
  rewrite Hd. unfold defer, bind, span_SetAttributes, call, r_SetCtx, span_End. simpl.
  by destruct (next _).
Qed.

Lemma mw_capture next w parent w0 ctx1 span w1 :
  Value (r_context (w_req w)) tracingMiddlewareHandled = None →
  getSpanContext (WithValue (r_context (w_req w)) tracingMiddlewareHandled (VInt 1))
    (r_Header (w_req w)) w = (Normal parent, w0) →
  tr_Start (tracingInstrumentName, VERSION) parent (r_URL (w_req w0)) SpanKindServer w0
    = (Normal (ctx1, span), w1) →
  IsUsingDefaultProvider = false →
  let r1 := w_req w1 in
  let base := [(tracingEventHttpRequestHeaders, HeaderToMap_String (r_Header r1));
               (tracingEventHttpRequestBaggage, GetBaggageMap_String ctx1)] in
  let bytes := rc_data (r_Body r1) in
  let plain := bool_decide (Header_Get (r_Header r1) "Content-Encoding" = "") in
  let reqAttrs :=
    if plain
    then base ++ [(tracingEventHttpRequestBody,
                   StrLimit (string_of_bytes bytes) MaxContentLogSize "...")]
    else base in
  let w2 :=
    mkWorld
      (set_Body (set_context r1 ctx1)
         (if plain then NewReadCloser bytes false else r_Body r1))
      (w_calls w1 ++
         [CallSetAttributes span CommonLabels; CallHeaderToMap (r_Header r1);
          CallGetBaggageMap] ++ (if plain then [CallReadAll] else []) ++
         [CallAddEvent span tracingEventHttpRequest reqAttrs])
      (w_entropy w1) in
  internalMiddlewareServerTracing next w =
    match next w2 with
    | (Panic v, w3) => (Panic v, add_calls w3 [CallEnd span])
    | (Normal _, w3) =>
        let r3 := w_req w3 in
        let rh := resp_Header (r_Response r3) in
        let rbase := [(tracingEventHttpResponseHeaders,
                       HeaderToMap_String (default ∅ rh))] in
        let respEncoding :=
          match rh with Some h => Header_Get h "Content-Encoding" | None => "" end in
        let respAttrs :=
          if bool_decide (respEncoding = "")
          then rbase ++ [(tracingEventHttpResponseBody,
                          StrLimit (string_of_bytes (resp_buffer (r_Response r3)))
                            MaxContentLogSize "...")]
          else rbase in
        (Normal tt,
         add_calls w3
           (match r_error r3 with
            | Some e => [CallSetStatus span Error (Sprintf_plus_v e)]
            | None => []
            end ++
            [CallHeaderToMap (default ∅ rh);
             CallAddEvent span tracingEventHttpResponse respAttrs;
             CallEnd span]))
    end.
Proof.
  intros Hm Hg Hs Hd.
  unfold internalMiddlewareServerTracing, bind at 1. unfold r_Context at 1. rewrite Hm.
  unfold bind at 1. unfold r_Header_ at 1. unfold bind at 1. rewrite Hg.
  unfold bind at 1. unfold r_URL_String at 1. unfold bind at 1. rewrite Hs.
  rewrite Hd. destruct w1 as [r1 cs1 e1]. simpl.
  unfold defer, bind, span_SetAttributes, span_AddEvent, span_SetStatus, span_End,
    call, r_SetCtx, r_Header_, HeaderToMap, GetBaggageMap, r_GetHeader, ReadAll_r_Body,
    r_Body_assign, r_GetError, r_Response_Header, r_Response_BufferString, ret,
    add_calls, with_req. simpl.
  case_bool_decide as Hp; (destruct (decide _) as [Hp'|Hp']; [|]); try done; simpl.
  all: rewrite <- !app_assoc; simpl.
  all: destruct (next _) as [[[]|v] [r3 cs3 e3]]; simpl; [|done].
  all: destruct (r_error r3); simpl.
  all: destruct (resp_Header (r_Response r3)); simpl.
  all: repeat case_bool_decide; repeat (destruct (decide _)); try done; simpl.
  all: by rewrite <- ?app_assoc.
Qed.

(** What the capture path hands to the chain, what it records before, and
    what it records after. *)
Lemma capture_hands_over (w : World) parent e span :
  Value (r_context (w_req w)) tracingMiddlewareHandled = None →
  IsUsingDefaultProvider = false →
  getSpanContext (WithValue (r_context (w_req w)) tracingMiddlewareHandled (VInt 1))
    (r_Header (w_req w)) w = (Normal parent, mkWorld (w_req w) (w_calls w) e) →
  tr_Start (tracingInstrumentName, VERSION) parent (r_URL (w_req w)) SpanKindServer
      (mkWorld (w_req w) (w_calls w) e)
    = (Normal (ContextWithSpan parent (startedSpan span), span),
       mkWorld (w_req w) (w_calls w ++ [CallStart span]) (S e)) →
  let r := w_req w in
  let ctx1 := ContextWithSpan parent (startedSpan span) in
  let plain := bool_decide (Header_Get (r_Header r) "Content-Encoding" = "") in
  let base := [(tracingEventHttpRequestHeaders, HeaderToMap_String (r_Header r));
               (tracingEventHttpRequestBaggage, GetBaggageMap_String ctx1)] in
  let reqAttrs :=
    if plain
    then base ++ [(tracingEventHttpRequestBody,
           StrLimit (string_of_bytes (rc_data (r_Body r))) MaxContentLogSize "...")]
    else base in
  let w1 :=
    mkWorld
      (set_Body (set_context r ctx1)
         (if plain then NewReadCloser (rc_data (r_Body r)) false else r_Body r))
      (w_calls w ++
         [CallStart span; CallSetAttributes span CommonLabels;
          CallHeaderToMap (r_Header r); CallGetBaggageMap] ++
         (if plain then [CallReadAll] else []) ++
         [CallAddEvent span tracingEventHttpRequest reqAttrs])
      (S e) in
  hands_over internalMiddlewareServerTracing w w1
  ∧ ∀ next w3, next w1 = (Normal tt, w3) →
      let r3 := w_req w3 in
      let rbase := [(tracingEventHttpResponseHeaders,
                     HeaderToMap_String (default ∅ (resp_Header (r_Response r3))))] in
      let respAttrs :=
        if bool_decide (response_encoding r3 = "")
        then rbase ++ [(tracingEventHttpResponseBody,
               StrLimit (string_of_bytes (resp_buffer (r_Response r3)))
                 MaxContentLogSize "...")]
        else rbase in
      w_calls (internalMiddlewareServerTracing next w).2 =
        w_calls w3 ++
          match r_error r3 with
          | Some e => [CallSetStatus span Error (Sprintf_plus_v e)]
          | None => []
          end ++
          [CallHeaderToMap (default ∅ (resp_Header (r_Response r3)));
           CallAddEvent span tracingEventHttpResponse respAttrs;
           CallEnd span].
Proof.
  intros Hm Hd Hg Hs.
  pose proof (λ next, mw_capture next w _ _ _ _ _ Hm Hg Hs Hd) as Hrun.
  simpl in Hrun. rewrite <- !app_assoc in Hrun. simpl in Hrun. simpl.
  split.
  - intros next. rewrite Hrun.
    destruct (next _) as [[[]|v] w3]; simpl; eauto.
  - intros next w3 Hn. by rewrite Hrun, Hn.
Qed.

(** The same for the fast path. *)
Lemma fast_hands_over (w : World) parent e span :
  Value (r_context (w_req w)) tracingMiddlewareHandled = None →
  IsUsingDefaultProvider = true →
  getSpanContext (WithValue (r_context (w_req w)) tracingMiddlewareHandled (VInt 1))
    (r_Header (w_req w)) w = (Normal parent, mkWorld (w_req w) (w_calls w) e) →
  tr_Start (tracingInstrumentName, VERSION) parent (r_URL (w_req w)) SpanKindServer
      (mkWorld (w_req w) (w_calls w) e)
    = (Normal (ContextWithSpan parent (startedSpan span), span),
       mkWorld (w_req w) (w_calls w ++ [CallStart span]) (S e)) →
  let w1 :=
    mkWorld (set_context (w_req w) (ContextWithSpan parent (startedSpan span)))
      (w_calls w ++ [CallStart span; CallSetAttributes span CommonLabels]) (S e) in
  ∀ next, internalMiddlewareServerTracing next w
          = ((next w1).1, add_calls (next w1).2 [CallEnd span]).
Proof.
  intros Hm Hd Hg Hs w1 next.
  rewrite (mw_fast next w _ _ _ _ _ Hm Hg Hs Hd). simpl.
  unfold add_calls, with_req. simpl. subst w1. by rewrite <- app_assoc.
Qed.

(** On a request not handled yet the middleware starts one span, from the
    context the extractor returns, before anything else is logged. *)
Lemma unhandled_start (w : World) parent w0 :
  Value (r_context (w_req w)) tracingMiddlewareHandled = None →
  getSpanContext (WithValue (r_context (w_req w)) tracingMiddlewareHandled (VInt 1))
    (r_Header (w_req w)) w = (Normal parent, w0) →
  ∃ span w1 pre,
    hands_over internalMiddlewareServerTracing w w1
    ∧ w_calls w1 = w_calls w ++ CallStart span :: pre
    ∧ span_parent span = SpanContextFromContext parent
    ∧ (IsValid (SpanContextFromContext parent) = true →
       sc_TraceID (span_SpanContext span) = sc_TraceID (SpanContextFromContext parent)).
Proof.
  intros Hm Hg.
  destruct (getSpanContext_run
    (WithValue (r_context (w_req w)) tracingMiddlewareHandled (VInt 1))
    (r_Header (w_req w)) w) as (parent' & e & Hg').
  rewrite Hg in Hg'. injection Hg' as -> ->.
  destruct (tr_Start_run (tracingInstrumentName, VERSION) parent' (r_URL (w_req w))
    SpanKindServer (mkWorld (w_req w) (w_calls w) e)) as (span & Hs & Hpar & Hid).
  destruct IsUsingDefaultProvider eqn:Hd.
  - pose proof (fast_hands_over w parent' e span Hm Hd Hg Hs) as Hrun.
    simpl in Hrun. eexists span, _, _. split; [|split; [|done]].
    + intros next. rewrite Hrun. simpl. eauto.
    + reflexivity.
  - destruct (capture_hands_over w parent' e span Hm Hd Hg Hs) as (Hh & _).
    eexists span, _, _. split; [exact Hh|]. split; [reflexivity|done].
Qed.
End Run.

(** ** Auxiliary facts *)

Lemma count_starts_app (a b : list Call) :
  count_starts (a ++ b) = (count_starts a + count_starts b)%nat.
Proof. induction a as [|[] a IH]; simpl; by rewrite ?IH. Qed.
Lemma length_string_of_bytes (b : list byte) :
  String.length (string_of_bytes b) = length b.
Proof. induction b as [|x b IH]; simpl; [done|]. by f_equal. Qed.

Lemma substring_string_of_bytes (n : nat) (b : list byte) :
  String.substring 0 n (string_of_bytes b) = string_of_bytes (take n b).
Proof.
  revert n. induction b as [|x b IH]; intros [|n]; simpl; try done.
  change (string_of_bytes (x :: take n b))
    with (String (ascii_of_byte x) (string_of_bytes (take n b))).
  f_equal. apply IH.
Qed.

Lemma StrLimit_truncated (limit : Z) (b : list byte) :
  truncated_to limit b (StrLimit (string_of_bytes b) limit "...").
Proof.
  unfold truncated_to, StrLimit. rewrite length_string_of_bytes, substring_string_of_bytes.
  split; intros Hl.
  - by rewrite (proj2 (Z.ltb_lt _ _) Hl).
  - by rewrite (proj2 (Z.ltb_ge _ _) Hl).
Qed.

Lemma app_tail3 {A} (l s : list A) (a b c : A) :
  l ++ s ++ [a; b; c] = l ++ (s ++ [a]) ++ [b; c].
Proof. by rewrite <- (app_assoc s). Qed.

Lemma events_lack (name key : string) (cs : list Call) :
  Forall (λ c, match c with
               | CallAddEvent _ n kv => n = name → attribute key kv = None
               | _ => True
               end) cs →
  ∀ span attrs, CallAddEvent span name attrs ∈ cs → attribute key attrs = None.
Proof.
  intros Hall span attrs Hin. rewrite Forall_forall in Hall.
  exact (Hall _ Hin eq_refl).
Qed.

Lemma not_read (cs : list Call) :
  Forall (λ c, c ≠ CallReadAll) cs → CallReadAll ∉ cs.
Proof. intros Hall Hin. rewrite Forall_forall in Hall. by apply (Hall _ Hin). Qed.

(** The sample propagator meets the assumptions made on propagators. *)

Lemma Sample_keeps_marker d n : keeps_marker (H := Sample.collaborators d n).
Proof.
  intros ctx h Hm. simpl. unfold Sample.extract.
  by destruct (Sample.traceparent _).
Qed.



Lemma Sample_reads_only_fields d n : reads_only_fields (H := Sample.collaborators d n).
Proof.
  intros ctx h h' Hsame. simpl. unfold Sample.extract.
  replace (Sample.get h' "traceparent") with (Sample.get h "traceparent"); [done|].
  apply (Hsame "traceparent"). set_solver.
Qed.

(** ** The claims *)

(** C1.  A request whose context already carries the marker is handed to the
    next handler and nothing else happens: the middleware is the rest of the
    chain.  Hence installing the middleware twice in a row is the same as
    installing it once, and such a chain starts exactly one span when the
    handlers below start none. *)
Theorem guard_skips_tracing `{Collaborators} (Hkeep : keeps_marker)
    (next : M unit) (w : World) :
  (Value (r_context (w_req w)) tracingMiddlewareHandled ≠ None →
   internalMiddlewareServerTracing next w = next w)
  ∧ internalMiddlewareServerTracing (internalMiddlewareServerTracing next) w
    = internalMiddlewareServerTracing next w
  ∧ (Value (r_context (w_req w)) tracingMiddlewareHandled = None →
     (∀ w', w_calls (next w').2 = w_calls w') →
     count_starts
       (w_calls (internalMiddlewareServerTracing (internalMiddlewareServerTracing next) w).2)
     = S (count_starts (w_calls w))).
Proof.
  split; [apply mw_handled|].
  destruct (Value (r_context (w_req w)) tracingMiddlewareHandled) as [v|] eqn:Hm.
  { split; [|done]. rewrite (mw_handled _ w); [done|]. by rewrite Hm. }
  destruct (opening w) as (parent & n & span & Hg & Hs).
  assert (Hp : Value parent tracingMiddlewareHandled ≠ None).
  { eapply getSpanContext_marker; [done| |exact Hg].
    unfold WithValue, Value. by rewrite decide_True. }
  destruct IsUsingDefaultProvider eqn:Hd.
  - rewrite (mw_fast _ w _ _ _ _ _ Hm Hg Hs Hd).
    rewrite (mw_fast next w _ _ _ _ _ Hm Hg Hs Hd). simpl.
    rewrite mw_handled by done.
    split; [done|]. intros _ Hq. rewrite Hq. simpl.
    rewrite ?count_starts_app. simpl. lia.
  - rewrite (mw_capture _ w _ _ _ _ _ Hm Hg Hs Hd).
    rewrite (mw_capture next w _ _ _ _ _ Hm Hg Hs Hd). simpl.
    rewrite mw_handled by done.
    split; [done|]. intros _ Hq.
    match goal with
    | |- context [next ?x] => specialize (Hq x); destruct (next x) as [[[]|v] w3]
    end;
      simpl in *; rewrite ?count_starts_app, Hq, ?count_starts_app; simpl.
    + destruct (bool_decide _), (r_error _); simpl; rewrite ?count_starts_app; simpl; lia.
    + destruct (bool_decide _); simpl; rewrite ?count_starts_app; simpl; lia.
Qed.

Lemma guard_skips_tracing_sample :
  let H := Sample.collaborators true 3 in
  let w := Sample.world Sample.plain (mkReadCloser Sample.body None) in
  internalMiddlewareServerTracing (internalMiddlewareServerTracing Sample.echo) w
    = internalMiddlewareServerTracing Sample.echo w
  ∧ count_starts
      (w_calls (internalMiddlewareServerTracing
                  (internalMiddlewareServerTracing Sample.echo) w).2) = 1%nat.
Proof.
  intros H w.
  destruct (guard_skips_tracing (Sample_keeps_marker true 3) Sample.echo w)
    as (_ & Heq & Hone).
  split; [exact Heq|]. apply Hone; [reflexivity|]. intros w'. reflexivity.
Defined.

(** C2.  When the custom trace-ID header holds a value that parses, the
    extractor returns the given context with a remote parent span context
    made of the parsed trace ID and of the span ID drawn from the generator at
    that moment (the generator moves on; nothing else changes).  When both
    identifiers are valid, a span started from the returned context is a
    child of that parent and has the parsed trace ID; such is the span the
    middleware starts for a request it has not handled yet. *)
Theorem custom_trace_id_continues_trace `{Collaborators}
    (ctx : Context) (header : Header) (w : World) (tid : TraceID)
    (Hpresent : Header_Get header "MF-X-TRACE-ID" ≠ "")
    (Hparse : TraceIDFromHex (Header_Get header "MF-X-TRACE-ID") = Some tid) :
  let sid := NewSpanID_at (w_entropy w) in
  let remote := mkSpanContext tid sid 0 [] true in
  ∃ parent,
    getSpanContext ctx header w
      = (Normal parent, mkWorld (w_req w) (w_calls w) (S (w_entropy w)))
    ∧ parent = ContextWithRemoteSpanContext ctx (mkSpanContext tid sid 0 [] false)
    ∧ SpanContextFromContext parent = remote
    ∧ (tid ≠ 0 → sid ≠ 0 →
       ∀ instr name kind w0, ∃ span w1,
         tr_Start instr parent name kind w0
           = (Normal (ContextWithSpan parent (startedSpan span), span), w1)
         ∧ sc_TraceID (span_SpanContext span) = tid
         ∧ span_parent span = remote)
    ∧ (tid ≠ 0 → sid ≠ 0 →
       Value (r_context (w_req w)) tracingMiddlewareHandled = None →
       ctx = WithValue (r_context (w_req w)) tracingMiddlewareHandled (VInt 1) →
       header = r_Header (w_req w) →
       ∃ span w1 pre,
         hands_over internalMiddlewareServerTracing w w1
         ∧ w_calls w1 = w_calls w ++ CallStart span :: pre
         ∧ sc_TraceID (span_SpanContext span) = tid
         ∧ span_parent span = remote).
Proof.
  intros sid remote.
  assert (Hrun : getSpanContext ctx header w
            = (Normal (ContextWithRemoteSpanContext ctx (mkSpanContext tid sid 0 [] false)),
               mkWorld (w_req w) (w_calls w) (S (w_entropy w)))).
  { unfold getSpanContext. rewrite decide_False by done. by rewrite Hparse. }
  assert (Hvalid : tid ≠ 0 → sid ≠ 0 → IsValid remote = true).
  { intros Ht Hs. apply andb_true_intro.
    split; apply negb_true_iff, Z.eqb_neq; done. }
  eexists. split; [exact Hrun|]. split; [reflexivity|]. split; [reflexivity|]. split.
  - intros Ht Hs instr name kind w0.
    destruct (tr_Start_run instr
      (ContextWithRemoteSpanContext ctx (mkSpanContext tid sid 0 [] false))
      name kind w0) as (span & Hstart & Hpar & Hid).
    exists span. eexists. split; [exact Hstart|]. split; [|exact Hpar].
    by rewrite Hid; [|apply Hvalid].
  - intros Ht Hs Hm -> ->.
    destruct (unhandled_start w _ _ Hm Hrun) as (span & w1 & pre & Hh & Hc & Hpar & Hid).
    exists span, w1, pre. split; [exact Hh|]. split; [exact Hc|]. split; [|exact Hpar].
    by rewrite Hid; [|apply Hvalid].
Qed.

Lemma custom_trace_id_continues_trace_sample :
  let H := Sample.collaborators false 3 in
  let w := Sample.world Sample.traced (mkReadCloser Sample.body None) in
  let tid := 14576827793038113322513871894673895836 in
  ∃ span w1 pre,
    hands_over internalMiddlewareServerTracing w w1
    ∧ w_calls w1 = w_calls w ++ CallStart span :: pre
    ∧ sc_TraceID (span_SpanContext span) = tid
    ∧ span_parent span = mkSpanContext tid 1 0 [] true.
Proof.
  intros H w tid.
  destruct (custom_trace_id_continues_trace
              (WithValue [] tracingMiddlewareHandled (VInt 1)) Sample.traced w tid)
    as (parent & _ & _ & _ & _ & Hmw).
  - vm_compute. discriminate.
  - vm_compute. reflexivity.
  - apply Hmw; solve [reflexivity | discriminate].
Defined.

(** C3.  When the value of the custom trace-ID header does not parse, the
    extractor returns what the propagator extracts, which is what it extracts
    from the headers without the custom one, for a propagator that reads the
    carrier under its declared fields only and does not declare the custom
    header; the outcome is normal and the world is left as it was. *)
Theorem malformed_trace_id_falls_back `{Collaborators}
    (ctx : Context) (header : Header) (w : World)
    (Hfields : reads_only_fields)
    (Hcustom : ∀ k, k ∈ Propagator_Fields →
       CanonicalMIMEHeaderKey k ≠ CanonicalMIMEHeaderKey "MF-X-TRACE-ID")
    (Hbad : TraceIDFromHex (Header_Get header "MF-X-TRACE-ID") = None) :
  getSpanContext ctx header w
  = (Normal (Propagator_Extract ctx (Header_Del header "MF-X-TRACE-ID")), w).
Proof.
  assert (Hsame : Propagator_Extract ctx header
                  = Propagator_Extract ctx (Header_Del header "MF-X-TRACE-ID")).
  { apply Hfields. intros k Hk. unfold Header_Get, Header_Del.
    rewrite lookup_delete_ne; [done|]. intros Heq. by apply (Hcustom k Hk). }
  unfold getSpanContext. rewrite Hbad, <- Hsame.
  by destruct (decide _).
Qed.

Lemma malformed_trace_id_falls_back_sample :
  let H := Sample.collaborators false 3 in
  let w := Sample.world Sample.mistraced (mkReadCloser Sample.body None) in
  getSpanContext [] Sample.mistraced w
  = (Normal (Propagator_Extract [] (Header_Del Sample.mistraced "MF-X-TRACE-ID")), w).
Proof.
  intros H w.
  apply (malformed_trace_id_falls_back [] Sample.mistraced w
           (Sample_reads_only_fields false 3)).
  - intros k Hk. simpl in Hk.
    apply elem_of_cons in Hk as [->|Hk]; [vm_compute; discriminate|].
    apply elem_of_cons in Hk as [->|Hk]; [vm_compute; discriminate|].
    by apply elem_of_nil in Hk.
  - vm_compute. reflexivity.
Defined.

(** C4.  With the default provider, a request not yet handled gets its span
    started and labelled and its context replaced, then the rest of the chain
    runs, and the span is ended when the chain comes back, by a return or by
    a panic.  The middleware makes no other call: no header or baggage is
    serialized, the body is not read, and no event is recorded. *)
Theorem default_provider_fast_path `{Collaborators} (w : World)
    (Hm : Value (r_context (w_req w)) tracingMiddlewareHandled = None)
    (Hd : IsUsingDefaultProvider = true) :
  ∃ span ctx1 e1,
    let before := [CallStart span; CallSetAttributes span CommonLabels] in
    let after := [CallEnd span] in
    let w1 := mkWorld (set_context (w_req w) ctx1) (w_calls w ++ before) e1 in
    (∀ next, internalMiddlewareServerTracing next w
             = ((next w1).1, add_calls (next w1).2 after))
    ∧ r_Body (w_req w1) = r_Body (w_req w)
    ∧ Forall (λ c, is_capture c = false) (before ++ after)
    ∧ events_named span tracingEventHttpRequest (before ++ after) = []
    ∧ events_named span tracingEventHttpResponse (before ++ after) = [].
Proof.
  destruct (opening w) as (parent & n & span & Hg & Hs).
  exists span, (ContextWithSpan parent (startedSpan span)), (S n). simpl.
  split; [|split; [done|split; [by repeat constructor|done]]].
  exact (fast_hands_over w parent n span Hm Hd Hg Hs).
Qed.

Lemma default_provider_fast_path_sample :
  let H := Sample.collaborators true 3 in
  let w := Sample.world Sample.plain (mkReadCloser Sample.body None) in
  ∃ span ctx1 e1,
    let w1 := mkWorld (set_context (w_req w) ctx1)
                (w_calls w ++ [CallStart span; CallSetAttributes span CommonLabels]) e1 in
    ∀ next, internalMiddlewareServerTracing next w
            = ((next w1).1, add_calls (next w1).2 [CallEnd span]).
Proof.
  intros H w.
  destruct (default_provider_fast_path w) as (span & ctx1 & e1 & Hrun & _).
  - reflexivity.
  - reflexivity.
  - exists span, ctx1, e1. exact Hrun.
Defined.

(** C5.  On the capture path, with no Content-Encoding on the request, the
    body is read for the event and the chain is then run on a request whose
    body stream, read to its end, delivers the bytes of the original stream,
    all of them and in order, and ends without an error. *)
Theorem capture_restores_body `{Collaborators} (w : World)
    (Hm : Value (r_context (w_req w)) tracingMiddlewareHandled = None)
    (Hd : IsUsingDefaultProvider = false)
    (Hplain : Header_Get (r_Header (w_req w)) "Content-Encoding" = "") :
  ∃ w1 pre,
    hands_over internalMiddlewareServerTracing w w1
    ∧ w_calls w1 = w_calls w ++ pre
    ∧ CallReadAll ∈ pre
    ∧ (ioutil_ReadAll (r_Body (w_req w1))).1
      = (rc_data (r_Body (w_req w)), None).
Proof.
  destruct (opening w) as (parent & n & span & Hg & Hs).
  destruct (capture_hands_over w parent n span Hm Hd Hg Hs) as (Hh & _).
  rewrite (bool_decide_eq_true_2 _ Hplain) in Hh.
  eexists _, _. split; [exact Hh|]. simpl. split; [reflexivity|].
  split; [|done]. set_solver.
Qed.

Lemma capture_restores_body_sample :
  let H := Sample.collaborators false 3 in
  let w := Sample.world Sample.plain (mkReadCloser Sample.body None) in
  ∃ w1,
    hands_over internalMiddlewareServerTracing w w1
    ∧ (ioutil_ReadAll (r_Body (w_req w1))).1 = (Sample.body, None).
Proof.
  intros H w.
  destruct (capture_restores_body w) as (w1 & pre & Hh & _ & _ & Hb).
  - reflexivity.
  - reflexivity.
  - vm_compute. reflexivity.
  - exists w1. split; [exact Hh | exact Hb].
Defined.

(** C6.  On the capture path, the body attribute of the http.request event
    (recorded when the request has no Content-Encoding) and the body attribute
    of the http.response event (recorded when the response has none) hold the
    body cut to the configured size: its first [MaxContentLogSize] bytes
    followed by "..." when it is longer, the body itself otherwise. *)
Theorem captured_body_is_truncated `{Collaborators} (w : World)
    (Hm : Value (r_context (w_req w)) tracingMiddlewareHandled = None)
    (Hd : IsUsingDefaultProvider = false) :
  ∃ span w1,
    hands_over internalMiddlewareServerTracing w w1
    ∧ (Header_Get (r_Header (w_req w)) "Content-Encoding" = "" →
       ∃ pre attrs value,
         w_calls w1 = w_calls w ++ pre ++ [CallAddEvent span tracingEventHttpRequest attrs]
         ∧ attribute tracingEventHttpRequestBody attrs = Some value
         ∧ truncated_to MaxContentLogSize (rc_data (r_Body (w_req w))) value)
    ∧ (∀ next w3,
         next w1 = (Normal tt, w3) →
         response_encoding (w_req w3) = "" →
         ∃ mid attrs value,
           w_calls (internalMiddlewareServerTracing next w).2
           = w_calls w3 ++ mid ++
               [CallAddEvent span tracingEventHttpResponse attrs; CallEnd span]
           ∧ attribute tracingEventHttpResponseBody attrs = Some value
           ∧ truncated_to MaxContentLogSize (resp_buffer (r_Response (w_req w3))) value).
Proof.
  destruct (opening w) as (parent & n & span & Hg & Hs).
  destruct (capture_hands_over w parent n span Hm Hd Hg Hs) as (Hh & Hafter).
  eexists span, _. split; [exact Hh|]. split.
  - intros Hplain. rewrite (bool_decide_eq_true_2 _ Hplain). simpl.
    eexists [_; _; _; _; _], _, _. split; [reflexivity|].
    split; [reflexivity|]. apply StrLimit_truncated.
  - intros next w3 Hn Hplain. rewrite (Hafter next w3 Hn).
    rewrite (bool_decide_eq_true_2 _ Hplain).
    eexists _, _, _. split; [apply app_tail3|].
    split; [reflexivity|]. apply StrLimit_truncated.
Qed.

Lemma captured_body_is_truncated_sample :
  let H := Sample.collaborators false 3 in
  let w := Sample.world Sample.plain (mkReadCloser Sample.body None) in
  ∃ span w1, hands_over internalMiddlewareServerTracing w w1
    ∧ ∃ pre attrs value,
        w_calls w1 = w_calls w ++ pre ++ [CallAddEvent span tracingEventHttpRequest attrs]
        ∧ attribute tracingEventHttpRequestBody attrs = Some value
        ∧ truncated_to 3 Sample.body value.
Proof.
  intros H w.
  destruct (captured_body_is_truncated w) as (span & w1 & Hh & Hreq & _).
  - reflexivity.
  - reflexivity.
  - exists span, w1. split; [exact Hh|]. apply Hreq. vm_compute. reflexivity.
Defined.

(** C7.  Whatever the path taken, for a request with a non-empty
    Content-Encoding the middleware hands the body stream to the chain as it
    found it: it does not read it, and no http.request event it records has a
    body attribute.  When the chain returns a response with a non-empty
    Content-Encoding, no http.response event recorded by the middleware has a
    body attribute.  The size of the bodies plays no part. *)
Theorem encoded_bodies_are_skipped `{Collaborators} (w : World) :
  ∃ w1 pre,
    hands_over internalMiddlewareServerTracing w w1
    ∧ w_calls w1 = w_calls w ++ pre
    ∧ (Header_Get (r_Header (w_req w)) "Content-Encoding" ≠ "" →
       r_Body (w_req w1) = r_Body (w_req w)
       ∧ (CallReadAll ∉ pre)
       ∧ ∀ span attrs,
           CallAddEvent span tracingEventHttpRequest attrs ∈ pre →
           attribute tracingEventHttpRequestBody attrs = None)
    ∧ (∀ next w3,
         next w1 = (Normal tt, w3) →
         response_encoding (w_req w3) ≠ "" →
         ∃ post,
           w_calls (internalMiddlewareServerTracing next w).2 = w_calls w3 ++ post
           ∧ ∀ span attrs,
               CallAddEvent span tracingEventHttpResponse attrs ∈ post →
               attribute tracingEventHttpResponseBody attrs = None).
Proof.
  destruct (Value (r_context (w_req w)) tracingMiddlewareHandled) as [v|] eqn:Hm.
  { assert (Hm' : Value (r_context (w_req w)) tracingMiddlewareHandled ≠ None)
      by (by rewrite Hm).
    exists w, []. split; [|split; [by rewrite app_nil_r|split]].
    - intros next. rewrite (mw_handled next w Hm').
      split; [done|split; [done|]]. exists []. by rewrite app_nil_r.
    - intros _. split; [done|]. split; [by intros ?%elem_of_nil|].
      by intros span attrs ?%elem_of_nil.
    - intros next w3 Hn _. exists []. rewrite (mw_handled next w Hm'), Hn.
      split; [by rewrite app_nil_r|].
      by intros span attrs ?%elem_of_nil. }
  destruct (opening w) as (parent & n & span & Hg & Hs).
  destruct IsUsingDefaultProvider eqn:Hd.
  - pose proof (fast_hands_over w parent n span Hm Hd Hg Hs) as Hrun. simpl in Hrun.
    exists (mkWorld (set_context (w_req w) (ContextWithSpan parent (startedSpan span)))
              (w_calls w ++ [CallStart span; CallSetAttributes span CommonLabels]) (S n)),
           [CallStart span; CallSetAttributes span CommonLabels].
    split; [|split; [reflexivity|split]].
    + intros next. rewrite Hrun. simpl. eauto.
    + intros _. simpl. split; [done|].
      split; [apply not_read; by repeat constructor|].
      apply events_lack. by repeat constructor.
    + intros next w3 Hn _. rewrite Hrun, Hn. simpl. eexists. split; [reflexivity|].
      apply events_lack. by repeat constructor.
  - destruct (capture_hands_over w parent n span Hm Hd Hg Hs) as (Hh & Hafter).
    eexists _, _. split; [exact Hh|]. split; [reflexivity|]. split.
    + intros Henc. rewrite (bool_decide_eq_false_2 _ Henc). simpl.
      split; [done|].
      split; [apply not_read; by repeat constructor|].
      apply events_lack. by repeat constructor.
    + intros next w3 Hn Henc. rewrite (Hafter next w3 Hn).
      rewrite (bool_decide_eq_false_2 _ Henc).
      eexists. split; [reflexivity|].
      apply events_lack. destruct (r_error _); by repeat constructor.
Qed.

Lemma encoded_bodies_are_skipped_sample :
  let H := Sample.collaborators false 3 in
  let w := Sample.world Sample.encoded (mkReadCloser Sample.body None) in
  ∃ w1, hands_over internalMiddlewareServerTracing w w1
    ∧ r_Body (w_req w1) = mkReadCloser Sample.body None
    ∧ ∃ post,
        w_calls (internalMiddlewareServerTracing Sample.compressing w).2
        = w_calls (Sample.compressing w1).2 ++ post
        ∧ ∀ span attrs,
            CallAddEvent span tracingEventHttpResponse attrs ∈ post →
            attribute tracingEventHttpResponseBody attrs = None.
Proof.
  intros H w.
  destruct (encoded_bodies_are_skipped w) as (w1 & pre & Hh & _ & Hreq & Hresp).
  exists w1. split; [exact Hh|]. split.
  - apply Hreq. vm_compute. discriminate.
  - apply (Hresp Sample.compressing (Sample.compressing w1).2).
    + reflexivity.
    + vm_compute. discriminate.
Defined.



(** C9, as the code has it.  On the capture path, with no Content-Encoding on
    the request, a body whose read fails is still recorded: the http.request
    event carries a body attribute holding the bytes read before the failure,
    cut to the configured size.  The error of the read is dropped: the error
    slot of the request is left as it was, the chain runs on a body stream
    that replays those bytes, and the outcome of the middleware is the
    outcome of the chain. *)
Theorem failed_body_read_is_recorded `{Collaborators} (w : World) (err : string)
    (Hm : Value (r_context (w_req w)) tracingMiddlewareHandled = None)
    (Hd : IsUsingDefaultProvider = false)
    (Hplain : Header_Get (r_Header (w_req w)) "Content-Encoding" = "")
    (Hfail : rc_fail (r_Body (w_req w)) = Some err) :
  ∃ span w1 pre attrs value,
    hands_over internalMiddlewareServerTracing w w1
    ∧ w_calls w1 = w_calls w ++ pre ++ [CallAddEvent span tracingEventHttpRequest attrs]
    ∧ events_named span tracingEventHttpRequest pre = []
    ∧ attribute tracingEventHttpRequestBody attrs = Some value
    ∧ truncated_to MaxContentLogSize (rc_data (r_Body (w_req w))) value
    ∧ r_error (w_req w1) = r_error (w_req w)
    ∧ r_Body (w_req w1) = NewReadCloser (rc_data (r_Body (w_req w))) false.
Proof.
  destruct (opening w) as (parent & n & span & Hg & Hs).
  destruct (capture_hands_over w parent n span Hm Hd Hg Hs) as (Hh & _).
  rewrite (bool_decide_eq_true_2 _ Hplain) in Hh.
  eexists span, _, [_; _; _; _; _], _, _.
  split; [exact Hh|]. simpl. split; [reflexivity|].
  do 2 (split; [reflexivity|]). split; [apply StrLimit_truncated|done].
Qed.

Lemma failed_body_read_is_recorded_sample :
  let H := Sample.collaborators false 3 in
  let w := Sample.world Sample.plain (mkReadCloser Sample.body (Some "connection reset")) in
  ∃ span w1 pre attrs value,
    hands_over internalMiddlewareServerTracing w w1
    ∧ w_calls w1 = w_calls w ++ pre ++ [CallAddEvent span tracingEventHttpRequest attrs]
    ∧ attribute tracingEventHttpRequestBody attrs = Some value
    ∧ truncated_to 3 Sample.body value.
Proof.
  intros H w.
  destruct (failed_body_read_is_recorded w "connection reset")
    as (span & w1 & pre & attrs & value & Hh & Hc & _ & Ha & Ht & _).
  - reflexivity.
  - reflexivity.
  - vm_compute. reflexivity.
  - reflexivity.
  - by exists span, w1, pre, attrs, value.
Defined.

(** C9, as the specification has it, fails: a request whose body read breaks
    off after five bytes gets an http.request event with a body attribute. *)
Lemma failed_body_read_attribute_not_omitted :
  let H := Sample.collaborators false 10 in
  let w := Sample.world Sample.plain (mkReadCloser Sample.body (Some "connection reset")) in
  rc_fail (r_Body (w_req w)) ≠ None
  ∧ ¬ (∀ span attrs,
         CallAddEvent span tracingEventHttpRequest attrs
           ∈ w_calls (internalMiddlewareServerTracing Sample.echo w).2 →
         attribute tracingEventHttpRequestBody attrs = None).
Proof.
  intros H w. split; [done|]. intros Homitted.
  set (cs := w_calls (internalMiddlewareServerTracing Sample.echo w).2) in *.
  vm_compute in cs.
  assert (Hin : ∃ span attrs,
            CallAddEvent span tracingEventHttpRequest attrs ∈ cs
            ∧ attribute tracingEventHttpRequestBody attrs = Some "hello").
  { eexists _, _. split.
    - do 5 apply list_elem_of_further. apply list_elem_of_here.
    - reflexivity. }
  destruct Hin as (span & attrs & Hin & Ha).
  specialize (Homitted span attrs Hin). congruence.
Qed.

(** C10.  The remote parent synthesized from a custom trace-ID header that
    parses carries the parsed trace ID and the generated span ID and nothing
    more: its trace flags are zero, so it is not sampled, and its trace state
    is empty; a span started from the returned context has that unsampled
    span context as its parent. *)
Theorem synthesized_parent_is_bare `{Collaborators}
    (ctx : Context) (header : Header) (w : World) (tid : TraceID)
    (Hpresent : Header_Get header "MF-X-TRACE-ID" ≠ "")
    (Hparse : TraceIDFromHex (Header_Get header "MF-X-TRACE-ID") = Some tid) :
  ∃ parent w',
    getSpanContext ctx header w = (Normal parent, w')
    ∧ let sc := SpanContextFromContext parent in
      sc_TraceID sc = tid
      ∧ sc_SpanID sc = NewSpanID_at (w_entropy w)
      ∧ sc_TraceFlags sc = 0
      ∧ IsSampled sc = false
      ∧ sc_TraceState sc = []
      ∧ ∀ instr name kind w0, ∃ ctx1 span w1,
          tr_Start instr parent name kind w0 = (Normal (ctx1, span), w1)
          ∧ span_parent span = sc
          ∧ IsSampled (span_parent span) = false.
Proof.
  eexists _, _. split.
  - unfold getSpanContext. rewrite decide_False by done. by rewrite Hparse.
  - simpl. repeat split. intros instr name kind w0.
    destruct (tr_Start_run instr
      (ContextWithRemoteSpanContext ctx
         (mkSpanContext tid (NewSpanID_at (w_entropy w)) 0 [] false))
      name kind w0) as (span & Hrun & Hpar & _).
    eexists _, span, _. split; [exact Hrun|]. by rewrite Hpar.
Qed.

Lemma synthesized_parent_is_bare_sample :
  let H := Sample.collaborators false 3 in
  let w := Sample.world Sample.traced (mkReadCloser Sample.body None) in
  ∃ parent w',
    getSpanContext [] Sample.traced w = (Normal parent, w')
    ∧ sc_TraceFlags (SpanContextFromContext parent) = 0
    ∧ sc_TraceState (SpanContextFromContext parent) = [].
Proof.
  intros H w.
  destruct (synthesized_parent_is_bare [] Sample.traced w
              14576827793038113322513871894673895836)
    as (parent & w' & Hrun & _ & _ & Hflags & _ & Hstate & _).
  - vm_compute. discriminate.
  - vm_compute. reflexivity.
  - exists parent, w'. split; [exact Hrun|]. split; [exact Hflags | exact Hstate].
Defined.

(** ** Further properties of the two functions *)

Section Further.
Context `{Collaborators}.

Lemma tr_Start_fields instr ctx name kind w ctx1 span w1 :
  tr_Start instr ctx name kind w = (Normal (ctx1, span), w1) →
  span_name span = name ∧ span_kind span = kind ∧ span_instrumentation span = instr.
Proof.
  unfold tr_Start. destruct (IDGenerator_NewIDs _) as [tid sid].
  by intros [= _ <- _].
Qed.

(** What the chain is handed on a request not handled yet, on either path. *)
Lemma unhandled_hands_over (w : World) parent n span :
  Value (r_context (w_req w)) tracingMiddlewareHandled = None →
  getSpanContext (WithValue (r_context (w_req w)) tracingMiddlewareHandled (VInt 1))
    (r_Header (w_req w)) w = (Normal parent, mkWorld (w_req w) (w_calls w) n) →
  tr_Start (tracingInstrumentName, VERSION) parent (r_URL (w_req w)) SpanKindServer
      (mkWorld (w_req w) (w_calls w) n)
    = (Normal (ContextWithSpan parent (startedSpan span), span),
       mkWorld (w_req w) (w_calls w ++ [CallStart span]) (S n)) →
  ∃ w1 pre,
    hands_over internalMiddlewareServerTracing w w1
    ∧ w_calls w1
      = w_calls w ++ CallStart span :: CallSetAttributes span CommonLabels :: pre
    ∧ r_context (w_req w1) = ContextWithSpan parent (startedSpan span)
    ∧ r_Header (w_req w1) = r_Header (w_req w)
    ∧ r_URL (w_req w1) = r_URL (w_req w)
    ∧ r_error (w_req w1) = r_error (w_req w)
    ∧ r_Response (w_req w1) = r_Response (w_req w).
Proof.
  intros Hm Hg Hs. destruct IsUsingDefaultProvider eqn:Hd.
  - pose proof (fast_hands_over w parent n span Hm Hd Hg Hs) as Hrun. simpl in Hrun.
    exists (mkWorld (set_context (w_req w) (ContextWithSpan parent (startedSpan span)))
              (w_calls w ++ [CallStart span; CallSetAttributes span CommonLabels]) (S n)),
           [].
    split; [|done]. intros next. rewrite Hrun. simpl. eauto.
  - destruct (capture_hands_over w parent n span Hm Hd Hg Hs) as (Hh & _).
    eexists _, _. split; [exact Hh|]. simpl. split; [reflexivity|done].
Qed.

(** A panic of the chain on the capture path: nothing is recorded after it
    but the end of the span. *)
Lemma capture_panic (w : World) parent n span :
  Value (r_context (w_req w)) tracingMiddlewareHandled = None →
  IsUsingDefaultProvider = false →
  getSpanContext (WithValue (r_context (w_req w)) tracingMiddlewareHandled (VInt 1))
    (r_Header (w_req w)) w = (Normal parent, mkWorld (w_req w) (w_calls w) n) →
  tr_Start (tracingInstrumentName, VERSION) parent (r_URL (w_req w)) SpanKindServer
      (mkWorld (w_req w) (w_calls w) n)
    = (Normal (ContextWithSpan parent (startedSpan span), span),
       mkWorld (w_req w) (w_calls w ++ [CallStart span]) (S n)) →
  let r := w_req w in
  let ctx1 := ContextWithSpan parent (startedSpan span) in
  let plain := bool_decide (Header_Get (r_Header r) "Content-Encoding" = "") in
  let base := [(tracingEventHttpRequestHeaders, HeaderToMap_String (r_Header r));
               (tracingEventHttpRequestBaggage, GetBaggageMap_String ctx1)] in
  let reqAttrs :=
    if plain
    then base ++ [(tracingEventHttpRequestBody,
           StrLimit (string_of_bytes (rc_data (r_Body r))) MaxContentLogSize "...")]
    else base in
  let w1 :=
    mkWorld
      (set_Body (set_context r ctx1)
         (if plain then NewReadCloser (rc_data (r_Body r)) false else r_Body r))
      (w_calls w ++
         [CallStart span; CallSetAttributes span CommonLabels;
          CallHeaderToMap (r_Header r); CallGetBaggageMap] ++
         (if plain then [CallReadAll] else []) ++
         [CallAddEvent span tracingEventHttpRequest reqAttrs])
      (S n) in
  ∀ next v w3,
    next w1 = (Panic v, w3) →
    internalMiddlewareServerTracing next w = (Panic v, add_calls w3 [CallEnd span]).
Proof.
  intros Hm Hd Hg Hs.
  pose proof (λ next, mw_capture next w _ _ _ _ _ Hm Hg Hs Hd) as Hrun.
  simpl in Hrun. rewrite <- !app_assoc in Hrun. simpl in Hrun. simpl.
  intros next v w3 Hn. by rewrite Hrun, Hn.
Qed.

(** The middleware treats alike two chains that agree on the requests that
    carry the marker. *)
Lemma mw_ext (n1 n2 : M unit) (w : World) :
  keeps_marker →
  (∀ w', Value (r_context (w_req w')) tracingMiddlewareHandled ≠ None → n1 w' = n2 w') →
  internalMiddlewareServerTracing n1 w = internalMiddlewareServerTracing n2 w.
Proof.
  intros Hkeep Hagree.
  destruct (Value (r_context (w_req w)) tracingMiddlewareHandled) as [v|] eqn:Hm.
  { assert (Hm' : Value (r_context (w_req w)) tracingMiddlewareHandled ≠ None)
      by (by rewrite Hm).
    rewrite !mw_handled by done. by apply Hagree. }
  destruct (opening w) as (parent & n & span & Hg & Hs).
  assert (Hp : Value parent tracingMiddlewareHandled ≠ None).
  { eapply getSpanContext_marker; [done| |exact Hg].
    unfold WithValue, Value. by rewrite decide_True. }
  destruct IsUsingDefaultProvider eqn:Hd.
  - rewrite (mw_fast n1 w _ _ _ _ _ Hm Hg Hs Hd), (mw_fast n2 w _ _ _ _ _ Hm Hg Hs Hd).
    simpl. by rewrite Hagree.
  - rewrite (mw_capture n1 w _ _ _ _ _ Hm Hg Hs Hd),
            (mw_capture n2 w _ _ _ _ _ Hm Hg Hs Hd).
    simpl. by rewrite Hagree.
Qed.

End Further.

Lemma app_tail_end {A} (l s : list A) (a b c : A) :
  l ++ s ++ [a; b; c] = l ++ (s ++ [a; b]) ++ [c].
Proof. by rewrite <- (app_assoc s). Qed.

Lemma count_ends_app (a b : list Call) :
  count_ends (a ++ b) = (count_ends a + count_ends b)%nat.
Proof. induction a as [|[] a IH]; simpl; by rewrite ?IH. Qed.

(** X1.  The extractor touches neither the request nor the call log.  It
    draws a span ID only to synthesize a parent: with the custom header
    missing, empty or unparseable the world is left as it was and the result
    is the propagator's extraction from the full header set; with a value
    that parses exactly one identifier is drawn. *)
Theorem extractor_draws_only_to_synthesize `{Collaborators}
    (ctx : Context) (header : Header) (w : World) :
  ∃ parent w',
    getSpanContext ctx header w = (Normal parent, w')
    ∧ w_req w' = w_req w
    ∧ w_calls w' = w_calls w
    ∧ (Header_Get header "MF-X-TRACE-ID" = ""
       ∨ TraceIDFromHex (Header_Get header "MF-X-TRACE-ID") = None →
       w' = w ∧ parent = Propagator_Extract ctx header)
    ∧ (Header_Get header "MF-X-TRACE-ID" ≠ "" →
       TraceIDFromHex (Header_Get header "MF-X-TRACE-ID") ≠ None →
       w_entropy w' = S (w_entropy w)).
Proof.
  unfold getSpanContext. destruct (decide _) as [He|He].
  - exists (Propagator_Extract ctx header), w.
    split; [done|]. split; [done|]. split; [done|]. split; [done|].
    by intros Hne.
  - destruct (TraceIDFromHex _) as [tid|] eqn:Hp.
    + eexists _, _. split; [reflexivity|]. simpl.
      split; [done|]. split; [done|]. split; [|done].
      by intros [Hempty|Hnone].
    + exists (Propagator_Extract ctx header), w.
      split; [done|]. split; [done|]. split; [done|]. split; [done|].
      by intros _ Hsome.
Qed.

Lemma extractor_draws_only_to_synthesize_sample :
  let H := Sample.collaborators false 3 in
  let w := Sample.world Sample.plain (mkReadCloser Sample.body None) in
  ∃ parent w',
    getSpanContext [] Sample.plain w = (Normal parent, w')
    ∧ w' = w ∧ parent = Propagator_Extract [] Sample.plain.
Proof.
  intros H w.
  destruct (extractor_draws_only_to_synthesize [] Sample.plain w)
    as (parent & w' & Hrun & _ & _ & Hsame & _).
  exists parent, w'. split; [exact Hrun|]. apply Hsame. left. vm_compute. reflexivity.
Defined.

(** X2.  With a custom trace-ID header that parses, the context the chain
    sees differs from the context the request came with at two keys only:
    the marker, now 1, and the current span, now the started span.  Every
    other value is the one the request had; the propagator has no say. *)
Theorem custom_header_context_frame `{Collaborators} (w : World) (tid : TraceID)
    (Hm : Value (r_context (w_req w)) tracingMiddlewareHandled = None)
    (Hpresent : Header_Get (r_Header (w_req w)) "MF-X-TRACE-ID" ≠ "")
    (Hparse : TraceIDFromHex (Header_Get (r_Header (w_req w)) "MF-X-TRACE-ID") = Some tid) :
  ∃ span w1,
    hands_over internalMiddlewareServerTracing w w1
    ∧ Value (r_context (w_req w1)) tracingMiddlewareHandled = Some (VInt 1)
    ∧ Value (r_context (w_req w1)) currentSpanKey = Some (VSpan (startedSpan span))
    ∧ ∀ k, k ≠ currentSpanKey → k ≠ tracingMiddlewareHandled →
           Value (r_context (w_req w1)) k = Value (r_context (w_req w)) k.
Proof.
  set (ctx := WithValue (r_context (w_req w)) tracingMiddlewareHandled (VInt 1)).
  set (sc := NewSpanContext {| TraceID_ := tid; SpanID_ := NewSpanID_at (w_entropy w);
                               TraceFlags_ := 0; TraceState_ := []; Remote_ := false |}).
  assert (Hg : getSpanContext ctx (r_Header (w_req w)) w
            = (Normal (ContextWithRemoteSpanContext ctx sc),
               mkWorld (w_req w) (w_calls w) (S (w_entropy w)))).
  { unfold getSpanContext. rewrite decide_False by done. by rewrite Hparse. }
  destruct (tr_Start_run (tracingInstrumentName, VERSION)
              (ContextWithRemoteSpanContext ctx sc) (r_URL (w_req w)) SpanKindServer
              (mkWorld (w_req w) (w_calls w) (S (w_entropy w)))) as (span & Hs & _).
  destruct (unhandled_hands_over w _ _ span Hm Hg Hs)
    as (w1 & pre & Hh & _ & Hctx & _).
  exists span, w1. split; [exact Hh|]. rewrite Hctx.
  unfold ContextWithSpan, ContextWithRemoteSpanContext, ContextWithSpanContext,
    ContextWithSpan, ctx, WithValue. simpl.
  split; [reflexivity|]. split; [reflexivity|].
  intros k Hk1 Hk2. by rewrite !decide_False by congruence.
Qed.

Lemma custom_header_context_frame_sample :
  let H := Sample.collaborators false 3 in
  let w := Sample.world Sample.traced (mkReadCloser Sample.body None) in
  ∃ span w1,
    hands_over internalMiddlewareServerTracing w w1
    ∧ Value (r_context (w_req w1)) tracingMiddlewareHandled = Some (VInt 1)
    ∧ Value (r_context (w_req w1)) currentSpanKey = Some (VSpan (startedSpan span)).
Proof.
  intros H w.
  destruct (custom_header_context_frame w 14576827793038113322513871894673895836)
    as (span & w1 & Hh & Hk & Hsp & _).
  - reflexivity.
  - vm_compute. discriminate.
  - vm_compute. reflexivity.
  - by exists span, w1.
Defined.

(** X3.  For a request not handled yet, the context stored on the request
    before the chain runs has the span just started as its current span, so
    that handlers below find it, and it still carries the marker when the
    propagator keeps it. *)
Theorem chain_sees_started_span `{Collaborators} (w : World)
    (Hm : Value (r_context (w_req w)) tracingMiddlewareHandled = None) :
  ∃ span w1 pre,
    hands_over internalMiddlewareServerTracing w w1
    ∧ w_calls w1 = w_calls w ++ CallStart span :: pre
    ∧ Value (r_context (w_req w1)) currentSpanKey = Some (VSpan (startedSpan span))
    ∧ SpanContextFromContext (r_context (w_req w1)) = span_SpanContext span
    ∧ (keeps_marker →
       Value (r_context (w_req w1)) tracingMiddlewareHandled ≠ None).
Proof.
  destruct (opening w) as (parent & n & span & Hg & Hs).
  destruct (unhandled_hands_over w parent n span Hm Hg Hs)
    as (w1 & pre & Hh & Hc & Hctx & _).
  exists span, w1, (CallSetAttributes span CommonLabels :: pre).
  split; [exact Hh|]. split; [exact Hc|]. rewrite Hctx.
  split; [done|]. split; [done|].
  intros Hkeep. change (Value parent tracingMiddlewareHandled ≠ None).
  eapply getSpanContext_marker; [done| |exact Hg].
  unfold WithValue, Value. by rewrite decide_True.
Qed.

Lemma chain_sees_started_span_sample :
  let H := Sample.collaborators true 3 in
  let w := Sample.world Sample.plain (mkReadCloser Sample.body None) in
  ∃ span w1,
    hands_over internalMiddlewareServerTracing w w1
    ∧ SpanContextFromContext (r_context (w_req w1)) = span_SpanContext span
    ∧ Value (r_context (w_req w1)) tracingMiddlewareHandled ≠ None.
Proof.
  intros H w.
  destruct (chain_sees_started_span w) as (span & w1 & pre & Hh & _ & _ & Hsc & Hk).
  - reflexivity.
  - exists span, w1. split; [exact Hh|]. split; [exact Hsc|].
    apply Hk, Sample_keeps_marker.
Defined.

(** X4.  The span started for a request not handled yet is named by the URL
    of the request, is of kind server, comes from the tracer registered under
    the instrumentation name of the package and the version of the framework,
    and receives the common labels as its first call. *)
Theorem started_span_describes_request `{Collaborators} (w : World)
    (Hm : Value (r_context (w_req w)) tracingMiddlewareHandled = None) :
  ∃ span w1 pre,
    hands_over internalMiddlewareServerTracing w w1
    ∧ w_calls w1
      = w_calls w ++ CallStart span :: CallSetAttributes span CommonLabels :: pre
    ∧ span_name span = r_URL (w_req w)
    ∧ span_kind span = SpanKindServer
    ∧ span_instrumentation span = (tracingInstrumentName, VERSION).
Proof.
  destruct (opening w) as (parent & n & span & Hg & Hs).
  destruct (unhandled_hands_over w parent n span Hm Hg Hs)
    as (w1 & pre & Hh & Hc & _).
  exists span, w1, pre. split; [exact Hh|]. split; [exact Hc|].
  exact (tr_Start_fields _ _ _ _ _ _ _ _ Hs).
Qed.

Lemma started_span_describes_request_sample :
  let H := Sample.collaborators false 3 in
  let w := Sample.world Sample.plain (mkReadCloser Sample.body None) in
  ∃ span w1,
    hands_over internalMiddlewareServerTracing w w1
    ∧ span_name span = "http://localhost/hello"
    ∧ span_kind span = SpanKindServer
    ∧ span_instrumentation span = ("github.com/gogf/gf/v2/net/ghttp.Server", "v2").
Proof.
  intros H w.
  destruct (started_span_describes_request w)
    as (span & w1 & pre & Hh & _ & Hn & Hk & Hi).
  - reflexivity.
  - by exists span, w1.
Defined.

(** X5.  On every path the middleware hands the request to the chain with
    its headers, URL, error slot and response as it found them: before the
    chain runs it writes to the context and to the body stream only. *)
Theorem request_frame `{Collaborators} (w : World) :
  ∃ w1,
    hands_over internalMiddlewareServerTracing w w1
    ∧ r_Header (w_req w1) = r_Header (w_req w)
    ∧ r_URL (w_req w1) = r_URL (w_req w)
    ∧ r_error (w_req w1) = r_error (w_req w)
    ∧ r_Response (w_req w1) = r_Response (w_req w).
Proof.
  destruct (Value (r_context (w_req w)) tracingMiddlewareHandled) as [v|] eqn:Hm.
  { assert (Hm' : Value (r_context (w_req w)) tracingMiddlewareHandled ≠ None)
      by (by rewrite Hm).
    exists w. split; [|done]. intros next. rewrite (mw_handled next w Hm').
    split; [done|split; [done|]]. exists []. by rewrite app_nil_r. }
  destruct (opening w) as (parent & n & span & Hg & Hs).
  destruct (unhandled_hands_over w parent n span Hm Hg Hs)
    as (w1 & pre & Hh & _ & _ & Hrest).
  by exists w1.
Qed.

(** X6.  When the chain panics on the capture path, the panic goes on to the
    caller of the middleware; the middleware records no http.response event
    and sets no status, and its only call after the chain is the end of the
    span. *)
Theorem chain_panic_ends_span `{Collaborators} (w : World)
    (Hm : Value (r_context (w_req w)) tracingMiddlewareHandled = None)
    (Hd : IsUsingDefaultProvider = false) :
  ∃ span w1,
    hands_over internalMiddlewareServerTracing w w1
    ∧ ∀ next v w3,
        next w1 = (Panic v, w3) →
        internalMiddlewareServerTracing next w = (Panic v, add_calls w3 [CallEnd span]).
Proof.
  destruct (opening w) as (parent & n & span & Hg & Hs).
  destruct (capture_hands_over w parent n span Hm Hd Hg Hs) as (Hh & _).
  pose proof (capture_panic w parent n span Hm Hd Hg Hs) as Hp.
  eexists span, _. split; [exact Hh|exact Hp].
Qed.

Lemma chain_panic_ends_span_sample :
  let H := Sample.collaborators false 3 in
  let w := Sample.world Sample.plain (mkReadCloser Sample.body None) in
  let panicking : M unit := λ w', (Panic "nil map", w') in
  ∃ span w1,
    internalMiddlewareServerTracing panicking w
    = (Panic "nil map", add_calls w1 [CallEnd span]).
Proof.
  intros H w panicking.
  destruct (chain_panic_ends_span w) as (span & w1 & _ & Hp).
  - reflexivity.
  - reflexivity.
  - exists span, w1. by apply Hp.
Defined.

(** X7.  For a request not handled yet the middleware starts one span and
    ends that span once: its calls before the chain open with the start and
    hold no other start and no end, and its calls after the chain, however
    the chain comes back, close with the end and hold no start and no other
    end. *)
Theorem span_started_once_ended_once `{Collaborators} (w : World)
    (Hm : Value (r_context (w_req w)) tracingMiddlewareHandled = None) :
  ∃ span w1 pre,
    w_calls w1 = w_calls w ++ CallStart span :: pre
    ∧ count_starts pre = 0%nat
    ∧ count_ends pre = 0%nat
    ∧ ∀ next, ∃ post,
        (internalMiddlewareServerTracing next w).1 = (next w1).1
        ∧ w_calls (internalMiddlewareServerTracing next w).2
          = w_calls (next w1).2 ++ post ++ [CallEnd span]
        ∧ count_starts post = 0%nat
        ∧ count_ends post = 0%nat.
Proof.
  destruct (opening w) as (parent & n & span & Hg & Hs).
  destruct IsUsingDefaultProvider eqn:Hd.
  - pose proof (fast_hands_over w parent n span Hm Hd Hg Hs) as Hrun. simpl in Hrun.
    exists span,
      (mkWorld (set_context (w_req w) (ContextWithSpan parent (startedSpan span)))
         (w_calls w ++ [CallStart span; CallSetAttributes span CommonLabels]) (S n)),
      [CallSetAttributes span CommonLabels].
    split; [done|]. split; [done|]. split; [done|].
    intros next. exists []. by rewrite Hrun.
  - destruct (capture_hands_over w parent n span Hm Hd Hg Hs) as (Hh & Hafter).
    pose proof (capture_panic w parent n span Hm Hd Hg Hs) as Hp.
    simpl in Hh, Hafter, Hp.
    match type of Hh with hands_over _ _ ?W => exists span, W end.
    eexists. split; [reflexivity|].
    split; [by destruct (bool_decide _)|]. split; [by destruct (bool_decide _)|].
    intros next.
    match goal with |- context [next ?x] => destruct (next x) as [[[]|v] w3] eqn:Hn end.
    + eexists. rewrite (Hafter next w3 Hn).
      split; [by destruct (Hh next) as (-> & _); rewrite Hn|].
      split; [apply (app_tail_end (w_calls w3))|].
      by destruct (r_error _).
    + exists []. by rewrite (Hp next v w3 Hn).
Qed.

Lemma span_started_once_ended_once_sample :
  let H := Sample.collaborators false 3 in
  let w := Sample.world Sample.plain (mkReadCloser Sample.body None) in
  ∃ span w1 pre post,
    w_calls w1 = w_calls w ++ CallStart span :: pre
    ∧ w_calls (internalMiddlewareServerTracing Sample.failing w).2
      = w_calls (Sample.failing w1).2 ++ post ++ [CallEnd span]
    ∧ count_starts (pre ++ post) = 0%nat
    ∧ count_ends (pre ++ post) = 0%nat.
Proof.
  intros H w.
  destruct (span_started_once_ended_once w) as (span & w1 & pre & Hc & Hs & He & Hn).
  - reflexivity.
  - destruct (Hn Sample.failing) as (post & _ & Hc' & Hs' & He').
    exists span, w1, pre, post. split; [exact Hc|]. split; [exact Hc'|].
    rewrite count_starts_app, count_ends_app, Hs, He, Hs', He'. split; reflexivity.
Defined.



(** X9.  On the capture path, when the chain returns, exactly one
    http.response event is recorded after it, followed by the end of the span
    and by nothing else.  The event carries the serialized response headers
    (those of an empty map when the response has a nil header map), and with
    a nil header map the body attribute is recorded. *)
Theorem response_event_has_headers `{Collaborators} (w : World)
    (Hm : Value (r_context (w_req w)) tracingMiddlewareHandled = None)
    (Hd : IsUsingDefaultProvider = false) :
  ∃ span w1,
    hands_over internalMiddlewareServerTracing w w1
    ∧ ∀ next w3,
        next w1 = (Normal tt, w3) →
        ∃ mid attrs,
          w_calls (internalMiddlewareServerTracing next w).2
          = w_calls w3 ++ mid ++
              [CallAddEvent span tracingEventHttpResponse attrs; CallEnd span]
          ∧ events_named span tracingEventHttpResponse mid = []
          ∧ attribute tracingEventHttpResponseHeaders attrs
            = Some (HeaderToMap_String (default ∅ (resp_Header (r_Response (w_req w3)))))
          ∧ (resp_Header (r_Response (w_req w3)) = None →
             attribute tracingEventHttpResponseBody attrs ≠ None).
Proof.
  destruct (opening w) as (parent & n & span & Hg & Hs).
  destruct (capture_hands_over w parent n span Hm Hd Hg Hs) as (Hh & Hafter).
  eexists span, _. split; [exact Hh|].
  intros next w3 Hn. rewrite (Hafter next w3 Hn).
  eexists _, _. split; [apply app_tail3|].
  split; [by destruct (r_error _)|].
  split; [destruct (bool_decide (response_encoding (w_req w3) = "")); reflexivity|].
  intros Hnil. unfold response_encoding. rewrite Hnil. by rewrite bool_decide_eq_true_2.
Qed.

Lemma response_event_has_headers_sample :
  let H := Sample.collaborators false 3 in
  let w := Sample.world Sample.plain (mkReadCloser Sample.body None) in
  ∃ span mid attrs,
    w_calls (internalMiddlewareServerTracing Sample.echo w).2
    = mid ++ [CallAddEvent span tracingEventHttpResponse attrs; CallEnd span]
    ∧ attribute tracingEventHttpResponseHeaders attrs = Some "map".
Proof.
  intros H w.
  destruct (response_event_has_headers w) as (span & w1 & _ & Hafter).
  - reflexivity.
  - reflexivity.
  - destruct (Hafter Sample.echo (Sample.echo w1).2 eq_refl)
      as (mid & attrs & Hc & _ & Hhd & _).
    exists span, (w_calls (Sample.echo w1).2 ++ mid), attrs.
    split; [by rewrite <- app_assoc|exact Hhd].
Defined.

(** X10.  Installing the middleware at two positions of a chain that are
    not next to each other is the same as installing it at the outer one,
    when the handler in between leaves the marker in the context of the
    request (and the propagator keeps it). *)
Theorem inner_installation_is_transparent `{Collaborators}
    (Hkeep : keeps_marker) (between next : M unit) (w : World)
    (Hbetween : ∀ w',
       Value (r_context (w_req w')) tracingMiddlewareHandled ≠ None →
       Value (r_context (w_req (between w').2)) tracingMiddlewareHandled ≠ None) :
  internalMiddlewareServerTracing
    (bind between (λ _, internalMiddlewareServerTracing next)) w
  = internalMiddlewareServerTracing (bind between (λ _, next)) w.
Proof.
  apply mw_ext; [done|]. intros w' Hm'. unfold bind.
  specialize (Hbetween w' Hm'). destruct (between w') as [[[]|v] w'']; [|done].
  by apply mw_handled.
Qed.

Lemma inner_installation_is_transparent_sample :
  let H := Sample.collaborators false 3 in
  let w := Sample.world Sample.plain (mkReadCloser Sample.body None) in
  internalMiddlewareServerTracing
    (bind Sample.echo (λ _, internalMiddlewareServerTracing Sample.failing)) w
  = internalMiddlewareServerTracing (bind Sample.echo (λ _, Sample.failing)) w.
Proof.
  intros H w.
  apply (inner_installation_is_transparent (Sample_keeps_marker false 3)).
  intros w' Hm'. exact Hm'.
Defined.
